(** * RC step-response waveform engine ([src/app.py], [update_graphs])

    The callback [update_graphs] of the Dash application computes, from the
    resistance [R_ohm], the capacitance [C_micro_f] (in microfarads), the
    supply voltage [U0] and the mode switch, the sampled capacitor voltage,
    charge and current of a first-order RC circuit (lines 249-267 of the
    source).  The specification calls this computation [compute].

    The lines are embedded three times.  The first embedding reads Python
    floats as exact real numbers, on the documented precondition
    [R_ohm > 0] and [C_micro_f > 0]; it carries the closed forms, the bounds
    and the orderings.  [Module Ext] works over the reals extended with the
    special values [+inf], [-inf] and [nan], so that what a zero divisor
    produces is part of the model.  [Module B64] is the arithmetic of the code
    itself, IEEE 754 binary64 with [np.exp] as a parameter; it shows where
    rounding, underflow and overflow separate the code from the exact
    formulas. *)

From Stdlib Require Import String ZArith Reals Lra Lia List Bool.
From Stdlib Require Floats Uint63.
Import ListNotations.

Open Scope R_scope.

(** ** NumPy primitives used by the callback *)

Module Np.

(** [np.arange(0, num)] as an array of floats. *)
Definition arange (num : nat) : list R := map INR (seq 0 num).

(** [y[-1] = v]: overwrite the last element (nothing to do on an empty
    array, which [linspace] never passes). *)
Fixpoint set_last (y : list R) (v : R) : list R :=
  match y with
  | [] => []
  | [_] => [v]
  | x :: y' => x :: set_last y' v
  end.

(** [np.linspace(start, stop, num)] with the default [endpoint=True]:
    [div = num - 1], [delta = stop - start], [step = delta / div]; the
    samples are [arange(0, num) * step + start] (computed as
    [arange / div * delta + start] when [step == 0]), and the last one is
    overwritten with [stop] when [num > 1]. *)
Definition linspace (start stop : R) (num : nat) : list R :=
  let div := (num - 1)%nat in
  let delta := stop - start in
  let y := arange num in
  let y :=
    if (0 <? div)%nat then
      let step := delta / INR div in
      if Req_dec_T step 0
      then map (fun v => v * delta) (map (fun v => v / INR div) y)
      else map (fun v => v * step) y
    else map (fun v => v * delta) y in
  let y := map (fun v => v + start) y in
  if (1 <? num)%nat then set_last y stop else y.

(** Elementwise operations with a scalar operand, one array pass each, as
    NumPy evaluates them. *)
Definition neg (a : list R) : list R := map Ropp a.
Definition div_s (a : list R) (s : R) : list R := map (fun x => x / s) a.
Definition exp (a : list R) : list R := map Rtrigo_def.exp a.
Definition rsub_s (s : R) (a : list R) : list R := map (fun x => s - x) a.
Definition mul_s (s : R) (a : list R) : list R := map (fun x => s * x) a.

(** [a * s] with the scalar on the right, as in [t * 1000] and [Q * 1e3]. *)
Definition mul_r (a : list R) (s : R) : list R := map (fun x => x * s) a.

(** [np.max(a)] and [np.min(a)]: the reduction with maximum or minimum;
    [None] stands for the [ValueError] raised on an empty array. *)
Definition amax (a : list R) : option R :=
  match a with
  | [] => None
  | x :: a' => Some (fold_left Rmax a' x)
  end.

Definition amin (a : list R) : option R :=
  match a with
  | [] => None
  | x :: a' => Some (fold_left Rmin a' x)
  end.

End Np.

(** ** The callback *)

(** Python's builtin [max(a, b)]: the first argument is kept unless the
    second is strictly greater. *)
Definition py_max (a b : R) : R := if Rlt_dec a b then b else a.

(** The values the callback computes before any plotting. *)
Record Waveform : Type := mkWaveform {
  res_C : R;              (* C, farads *)
  res_tau : R;            (* tau, seconds *)
  res_t_max : R;          (* t_max, seconds *)
  res_t : list R;         (* t *)
  res_Uc : list R;        (* Uc *)
  res_Q : list R;         (* Q *)
  res_I : list R;         (* I *)
  res_mode_text : string  (* mode_text *)
}.

(** Lines 249-267.  Python's precedence is written out: [-t / tau] is
    [(-t) / tau], [C * U0 * e] is [(C * U0) * e] and [-(U0 / R_ohm) * e] is
    [(-(U0 / R_ohm)) * e]. *)
Definition update_graphs (R_ohm C_micro_f U0 : R) (mode_is_charge : bool)
  : Waveform :=
  let C := C_micro_f * 1e-6 in
  let tau := R_ohm * C in
  let t_max := py_max (5 * tau) 0.01 in
  let t := Np.linspace 0 t_max 500 in
  if mode_is_charge then
    let Uc := Np.mul_s U0 (Np.rsub_s 1 (Np.exp (Np.div_s (Np.neg t) tau))) in
    let Q := Np.mul_s C Uc in
    let I := Np.mul_s (U0 / R_ohm) (Np.exp (Np.div_s (Np.neg t) tau)) in
    mkWaveform C tau t_max t Uc Q I "Modus: Laden"
  else
    let Uc := Np.mul_s U0 (Np.exp (Np.div_s (Np.neg t) tau)) in
    let Q := Np.mul_s (C * U0) (Np.exp (Np.div_s (Np.neg t) tau)) in
    let I := Np.mul_s (- (U0 / R_ohm)) (Np.exp (Np.div_s (Np.neg t) tau)) in
    mkWaveform C tau t_max t Uc Q I "Modus: Entladen".

(** ** The same lines with the special values of float arithmetic

    What the callback produces when a divisor is zero: NumPy's elementwise
    division yields [inf] or [nan] (with a warning, no exception), which the
    later array passes propagate, whereas Python's scalar division
    [U0 / R_ohm] raises [ZeroDivisionError].  Values are exact reals or one
    of the three special values; zero carries no sign, so [x / 0] takes the
    sign of [x]. *)

Module Ext.

Inductive xreal : Type :=
| Fin (r : R)
| PInf
| NInf
| NaN.


Definition is_neg (x : xreal) : bool :=
  match x with
  | Fin r => if Rlt_dec r 0 then true else false
  | NInf => true
  | PInf | NaN => false
  end.

Definition inf_of (negative : bool) : xreal :=
  if negative then NInf else PInf.

Definition xneg (x : xreal) : xreal :=
  match x with
  | Fin r => Fin (- r)
  | PInf => NInf
  | NInf => PInf
  | NaN => NaN
  end.

Definition xadd (x y : xreal) : xreal :=
  match x, y with
  | NaN, _ | _, NaN => NaN
  | Fin a, Fin b => Fin (a + b)
  | Fin _, i | i, Fin _ => i
  | PInf, PInf => PInf
  | NInf, NInf => NInf
  | PInf, NInf | NInf, PInf => NaN
  end.

Definition xsub (x y : xreal) : xreal := xadd x (xneg y).

Definition xmul (x y : xreal) : xreal :=
  match x, y with
  | NaN, _ | _, NaN => NaN
  | Fin a, Fin b => Fin (a * b)
  | Fin a, _ | _, Fin a =>
      if Req_dec_T a 0 then NaN else inf_of (xorb (is_neg x) (is_neg y))
  | _, _ => inf_of (xorb (is_neg x) (is_neg y))
  end.

Definition xdiv (x y : xreal) : xreal :=
  match x, y with
  | NaN, _ | _, NaN => NaN
  | Fin a, Fin b =>
      if Req_dec_T b 0
      then if Req_dec_T a 0 then NaN else inf_of (is_neg x)
      else Fin (a / b)
  | Fin _, _ => Fin 0
  | _, Fin _ => inf_of (xorb (is_neg x) (is_neg y))
  | _, _ => NaN
  end.

Definition xexp (x : xreal) : xreal :=
  match x with
  | Fin r => Fin (Rtrigo_def.exp r)
  | PInf => PInf
  | NInf => Fin 0
  | NaN => NaN
  end.

(** Array passes with a finite scalar operand. *)
Definition of_array (a : list R) : list xreal := map Fin a.
Definition neg (a : list xreal) : list xreal := map xneg a.
Definition div_s (a : list xreal) (s : R) : list xreal :=
  map (fun x => xdiv x (Fin s)) a.
Definition exp (a : list xreal) : list xreal := map xexp a.
Definition rsub_s (s : R) (a : list xreal) : list xreal :=
  map (fun x => xsub (Fin s) x) a.
Definition mul_s (s : R) (a : list xreal) : list xreal :=
  map (fun x => xmul (Fin s) x) a.

(** Python's scalar [a / b] on finite floats: [None] stands for the
    [ZeroDivisionError] that aborts the callback. *)
Definition py_div (a b : R) : option R :=
  if Req_dec_T b 0 then None else Some (a / b).

Record XWaveform : Type := mkXWaveform {
  xres_C : R;
  xres_tau : R;
  xres_t_max : R;
  xres_t : list xreal;
  xres_Uc : list xreal;
  xres_Q : list xreal;
  xres_I : list xreal;
  xres_mode_text : string
}.

(** Lines 249-267 again.  The inputs are finite, so the scalars [C], [tau],
    [t_max] and [C * U0] and the grid of [np.linspace] (whose divisor is the
    integer 499) are finite as well; the array passes after the division by
    [tau] work on extended values. *)
Definition update_graphs (R_ohm C_micro_f U0 : R) (mode_is_charge : bool)
  : option XWaveform :=
  let C := C_micro_f * 1e-6 in
  let tau := R_ohm * C in
  let t_max := py_max (5 * tau) 0.01 in
  let t := of_array (Np.linspace 0 t_max 500) in
  if mode_is_charge then
    let Uc := mul_s U0 (rsub_s 1 (exp (div_s (neg t) tau))) in
    let Q := mul_s C Uc in
    match py_div U0 R_ohm with
    | None => None
    | Some q =>
        let I := mul_s q (exp (div_s (neg t) tau)) in
        Some (mkXWaveform C tau t_max t Uc Q I "Modus: Laden")
    end
  else
    let Uc := mul_s U0 (exp (div_s (neg t) tau)) in
    let Q := mul_s (C * U0) (exp (div_s (neg t) tau)) in
    match py_div U0 R_ohm with
    | None => None
    | Some q =>
        let I := mul_s (- q) (exp (div_s (neg t) tau)) in
        Some (mkXWaveform C tau t_max t Uc Q I "Modus: Entladen")
    end.


End Ext.


(** ** The figures (lines 278-362)

    The rest of the callback converts to display units and builds the three
    Plotly figures.  A figure is embedded by the data the callback hands to
    Plotly: the trace, the dashed vertical line at [tau], the annotation and
    the axis titles.  The line [info_text] (lines 270-276) prints floats as
    decimal strings and is not part of the embedding. *)

(** Python's builtin [max(iterable)]: the first element is kept until a
    strictly greater one comes; [None] stands for the [ValueError] raised on
    an empty iterable. *)
Definition py_max_iter (a : list R) : option R :=
  match a with
  | [] => None
  | x :: a' => Some (fold_left py_max a' x)
  end.

Record Figure : Type := mkFigure {
  fig_x : list R;              (* trace, x *)
  fig_y : list R;              (* trace, y *)
  fig_name : string;           (* trace, name *)
  fig_vline_x : R;             (* add_vline, x *)
  fig_annot_x : R;             (* add_annotation, x *)
  fig_annot_y : R;             (* add_annotation, y *)
  fig_annot_text : string;     (* add_annotation, text *)
  fig_annot_yshift : Z;        (* add_annotation, yshift *)
  fig_xaxis_title : string;
  fig_yaxis_title : string
}.

(** Lines 278-362, on the values of lines 249-267: the returned figures
    [fig_u], [fig_q], [fig_i] and [mode_text]. *)
Definition update_graphs_figures
    (R_ohm C_micro_f U0 : R) (mode_is_charge : bool)
  : option (Figure * Figure * Figure * string) :=
  let w := update_graphs R_ohm C_micro_f U0 mode_is_charge in
  let t_ms := Np.mul_r (res_t w) 1000 in
  let tau_ms := res_tau w * 1000 in
  match py_max_iter (res_Uc w) with
  | None => None
  | Some y_u =>
    let fig_u :=
      mkFigure t_ms (res_Uc w) "U_C(t)" tau_ms tau_ms y_u "t = τ" 20
        "Zeit t [ms]" "Spannung U_C [V]" in
    match py_max_iter (Np.mul_r (res_Q w) 1e3) with
    | None => None
    | Some y_q =>
      let fig_q :=
        mkFigure t_ms (Np.mul_r (res_Q w) 1e3) "Q(t)" tau_ms tau_ms y_q
          "t = τ" 20 "Zeit t [ms]" "Ladung Q [mC]" in
      match (if mode_is_charge
             then Np.amax (Np.mul_r (res_I w) 1e3)
             else Np.amin (Np.mul_r (res_I w) 1e3)) with
      | None => None
      | Some y_for_annot =>
        let fig_i :=
          mkFigure t_ms (Np.mul_r (res_I w) 1e3) "I(t)" tau_ms tau_ms
            y_for_annot "t = τ" (if mode_is_charge then 20 else -20)
            "Zeit t [ms]" "Strom I [mA] (Vorzeichen = Richtung)" in
        Some (fig_u, fig_q, fig_i, res_mode_text w)
      end
    end
  end.

(** ** The same lines in binary64

    Python's [float] is the IEEE 754 binary64 format, and so is Rocq's
    primitive [float]: the arithmetic of lines 249-267 is embedded here
    operation by operation, with its rounding, underflow and overflow.
    [np.exp] is NumPy library code; it is a parameter of the embedding. *)

Module B64.

Import PrimFloat.
#[local] Set Warnings "-inexact-float".

(** A Python [int] (an array index, the divisor of [linspace]) as a float. *)
Definition of_nat (n : nat) : float := of_uint63 (Uint63.of_Z (Z.of_nat n)).

(** Python's builtin [max(a, b)] on floats. *)
Definition py_max (a b : float) : float := if (a <? b)%float then b else a.

Definition arange (num : nat) : list float := map of_nat (seq 0 num).

Fixpoint set_last (y : list float) (v : float) : list float :=
  match y with
  | [] => []
  | [_] => [v]
  | x :: y' => x :: set_last y' v
  end.

(** [np.linspace(start, stop, num)], as [Np.linspace] above. *)
Definition linspace (start stop : float) (num : nat) : list float :=
  let div := (num - 1)%nat in
  let delta := (stop - start)%float in
  let y := arange num in
  let y :=
    if (0 <? div)%nat then
      let step := (delta / of_nat div)%float in
      if (step =? 0)%float
      then map (fun v => v * delta)%float
             (map (fun v => v / of_nat div)%float y)
      else map (fun v => v * step)%float y
    else map (fun v => v * delta)%float y in
  let y := map (fun v => v + start)%float y in
  if (1 <? num)%nat then set_last y stop else y.

Definition neg (a : list float) : list float := map opp a.
Definition div_s (a : list float) (s : float) : list float :=
  map (fun x => x / s)%float a.
Definition rsub_s (s : float) (a : list float) : list float :=
  map (fun x => s - x)%float a.
Definition mul_s (s : float) (a : list float) : list float :=
  map (fun x => s * x)%float a.

Record Waveform : Type := mkWaveform {
  res_C : float;
  res_tau : float;
  res_t_max : float;
  res_t : list float;
  res_Uc : list float;
  res_Q : list float;
  res_I : list float
}.

Section WithExp.

Variable np_exp : float -> float.

Definition exp (a : list float) : list float := map np_exp a.

(** Lines 249-267. *)
Definition update_graphs (R_ohm C_micro_f U0 : float) (mode_is_charge : bool)
  : Waveform :=
  let C := (C_micro_f * 1e-6)%float in
  let tau := (R_ohm * C)%float in
  let t_max := py_max (5 * tau)%float 0.01%float in
  let t := linspace 0%float t_max 500 in
  if mode_is_charge then
    let Uc := mul_s U0 (rsub_s 1%float (exp (div_s (neg t) tau))) in
    let Q := mul_s C Uc in
    let I := mul_s (U0 / R_ohm)%float (exp (div_s (neg t) tau)) in
    mkWaveform C tau t_max t Uc Q I
  else
    let Uc := mul_s U0 (exp (div_s (neg t) tau)) in
    let Q := mul_s (C * U0)%float (exp (div_s (neg t) tau)) in
    let I := mul_s (- (U0 / R_ohm))%float (exp (div_s (neg t) tau)) in
    mkWaveform C tau t_max t Uc Q I.

End WithExp.




End B64.

(** ** Lists: reading a sample out of an array pass *)

Lemma nth_map_lt {A B : Type} (f : A -> B) (l : list A) (i : nat)
    (d : B) (d' : A) :
  (i < length l)%nat -> nth i (map f l) d = f (nth i l d').
Proof.
  intros Hi.
  rewrite (nth_indep (map f l) d (f d')) by (rewrite length_map; exact Hi).
  apply map_nth.
Qed.

Lemma length_arange (num : nat) : length (Np.arange num) = num.
Proof. unfold Np.arange. now rewrite length_map, length_seq. Qed.

Lemma nth_arange (num i : nat) (d : R) :
  (i < num)%nat -> nth i (Np.arange num) d = INR i.
Proof.
  intros Hi. unfold Np.arange.
  rewrite (nth_indep _ d (INR 0)) by (now rewrite length_map, length_seq).
  rewrite map_nth, seq_nth by exact Hi. reflexivity.
Qed.

Lemma length_set_last (y : list R) (v : R) :
  length (Np.set_last y v) = length y.
Proof.
  induction y as [|x y IH]; [reflexivity|].
  destruct y as [|x' y]; [reflexivity|].
  change (S (length (Np.set_last (x' :: y) v)) = S (length (x' :: y))).
  now rewrite IH.
Qed.

Lemma nth_set_last_last (y : list R) (v d : R) :
  y <> [] -> nth (length y - 1) (Np.set_last y v) d = v.
Proof.
  induction y as [|x y IH]; intros Hy; [contradiction|].
  destruct y as [|x' y]; [reflexivity|].
  change (nth (S (length y)) (x :: Np.set_last (x' :: y) v) d = v).
  cbn [nth]. specialize (IH ltac:(discriminate)).
  cbn [length] in IH.
  replace (S (length y) - 1)%nat with (length y) in IH by lia.
  exact IH.
Qed.

Lemma nth_set_last_other (y : list R) (v d : R) (i : nat) :
  (S i < length y)%nat -> nth i (Np.set_last y v) d = nth i y d.
Proof.
  revert i. induction y as [|x y IH]; intros i Hi; [reflexivity|].
  destruct y as [|x' y]; [cbn in Hi; lia|].
  change (nth i (x :: Np.set_last (x' :: y) v) d = nth i (x :: x' :: y) d).
  destruct i as [|i]; [reflexivity|].
  cbn [nth]. apply IH. cbn [length] in *. lia.
Qed.

(** ** The sample grid of [np.linspace] *)

Lemma length_linspace (start stop : R) (num : nat) :
  length (Np.linspace start stop num) = num.
Proof.
  unfold Np.linspace.
  assert (Hy : forall y : list R, length y = num ->
    length (if (1 <? num)%nat
            then Np.set_last (map (fun v => v + start) y) stop
            else map (fun v => v + start) y) = num).
  { intros y Hlen. destruct (1 <? num)%nat.
    - now rewrite length_set_last, length_map.
    - now rewrite length_map. }
  destruct (0 <? num - 1)%nat; [destruct (Req_dec_T _ 0)|];
    apply Hy; rewrite ?length_map; apply length_arange.
Qed.

(** Every sample, the overwritten last one included, is
    [start + i * step] with [step = (stop - start) / (num - 1)]. *)
Lemma nth_linspace (start stop : R) (num i : nat) (d : R) :
  (1 < num)%nat -> (i < num)%nat ->
  nth i (Np.linspace start stop num) d
  = start + INR i * ((stop - start) / INR (num - 1)).
Proof.
  intros Hnum Hi. unfold Np.linspace.
  assert (Hdiv : INR (num - 1) <> 0) by (apply not_0_INR; lia).
  replace (0 <? num - 1)%nat with true by (symmetry; apply Nat.ltb_lt; lia).
  replace (1 <? num)%nat with true by (symmetry; apply Nat.ltb_lt; lia).
  set (div := INR (num - 1)) in *.
  set (delta := stop - start).
  assert (Hbody : forall y : list R, length y = num ->
    (forall j, (j < num)%nat -> nth j y d = INR j * (delta / div)) ->
    nth i (Np.set_last (map (fun v => v + start) y) stop) d
    = start + INR i * (delta / div)).
  { intros y Hlen Hy.
    destruct (Nat.eq_dec i (num - 1)) as [->|Hne].
    - replace (num - 1)%nat
        with (length (map (fun v => (v + start)%R) y) - 1)%nat
        by (now rewrite length_map, Hlen).
      rewrite nth_set_last_last.
      + rewrite length_map, Hlen. fold div. unfold delta. field. exact Hdiv.
      + intros E. apply (f_equal (@length R)) in E.
        rewrite length_map, Hlen in E. cbn in E. lia.
    - rewrite nth_set_last_other by (rewrite length_map, Hlen; lia).
      rewrite (nth_map_lt _ _ _ _ d) by (rewrite Hlen; exact Hi).
      rewrite Hy by exact Hi. ring. }
  destruct (Req_dec_T (delta / div) 0) as [Hz|Hnz].
  - apply Hbody.
    + now rewrite !length_map, length_arange.
    + intros j Hj.
      rewrite (nth_map_lt _ _ _ _ d) by (now rewrite length_map, length_arange).
      rewrite (nth_map_lt _ _ _ _ d) by (now rewrite length_arange).
      rewrite nth_arange by exact Hj. field. exact Hdiv.
  - apply Hbody.
    + now rewrite length_map, length_arange.
    + intros j Hj.
      rewrite (nth_map_lt _ _ _ _ d) by (now rewrite length_arange).
      now rewrite nth_arange by exact Hj.
Qed.

(** ** Scalars: capacitance, time constant, window *)


Lemma res_C_eq (R_ohm C_micro_f U0 : R) (m : bool) :
  res_C (update_graphs R_ohm C_micro_f U0 m) = C_micro_f * 1e-6.
Proof. now destruct m. Qed.

Lemma res_tau_eq (R_ohm C_micro_f U0 : R) (m : bool) :
  res_tau (update_graphs R_ohm C_micro_f U0 m) = R_ohm * (C_micro_f * 1e-6).
Proof. now destruct m. Qed.

Lemma res_t_max_eq (R_ohm C_micro_f U0 : R) (m : bool) :
  res_t_max (update_graphs R_ohm C_micro_f U0 m)
  = py_max (5 * (R_ohm * (C_micro_f * 1e-6))) 0.01.
Proof. now destruct m. Qed.

Lemma res_t_eq (R_ohm C_micro_f U0 : R) (m : bool) :
  res_t (update_graphs R_ohm C_micro_f U0 m)
  = Np.linspace 0 (py_max (5 * (R_ohm * (C_micro_f * 1e-6))) 0.01) 500.
Proof. now destruct m. Qed.



(** ** Samples of the three waveforms *)

(** The exponential factor [np.exp(-t / tau)], read at one index. *)
Lemma nth_exp_pass (t : list R) (tau : R) (i : nat) (d : R) :
  (i < length t)%nat ->
  nth i (Np.exp (Np.div_s (Np.neg t) tau)) d = exp (- nth i t 0 / tau).
Proof.
  intros Hi. unfold Np.exp, Np.div_s, Np.neg.
  rewrite (nth_map_lt _ _ _ _ 0) by (now rewrite !length_map).
  rewrite (nth_map_lt _ _ _ _ 0) by (now rewrite length_map).
  now rewrite (nth_map_lt _ _ _ _ 0) by exact Hi.
Qed.

Lemma length_exp_pass (t : list R) (tau : R) :
  length (Np.exp (Np.div_s (Np.neg t) tau)) = length t.
Proof. unfold Np.exp, Np.div_s, Np.neg. now rewrite !length_map. Qed.

Lemma nth_mul_s (s : R) (a : list R) (i : nat) (d : R) :
  (i < length a)%nat -> nth i (Np.mul_s s a) d = s * nth i a 0.
Proof. intros Hi. unfold Np.mul_s. now apply nth_map_lt. Qed.

Lemma nth_rsub_s (s : R) (a : list R) (i : nat) (d : R) :
  (i < length a)%nat -> nth i (Np.rsub_s s a) d = s - nth i a 0.
Proof. intros Hi. unfold Np.rsub_s. now apply nth_map_lt. Qed.

Lemma length_mul_s (s : R) (a : list R) : length (Np.mul_s s a) = length a.
Proof. apply length_map. Qed.

Lemma length_rsub_s (s : R) (a : list R) : length (Np.rsub_s s a) = length a.
Proof. apply length_map. Qed.

Section Samples.

Variables R_ohm C_micro_f U0 : R.

Local Abbreviation C := (C_micro_f * 1e-6).
Local Abbreviation tau := (R_ohm * (C_micro_f * 1e-6)).
Local Abbreviation w m := (update_graphs R_ohm C_micro_f U0 m).
Local Abbreviation t_ i := (nth i (res_t (w true)) 0).

Lemma length_res_t (m : bool) : length (res_t (w m)) = 500%nat.
Proof. rewrite res_t_eq. apply length_linspace. Qed.

Lemma res_t_mode (m : bool) : res_t (w m) = res_t (w true).
Proof. now rewrite !res_t_eq. Qed.

(** Reading index [i] through the array passes of one waveform: every pass
    keeps the length of the grid, so the index stays in range. *)
Ltac read_sample Hi :=
  let Hlen := fresh "Hlen" in
  pose proof (length_res_t true) as Hlen;
  cbn [update_graphs res_Uc res_Q res_I res_t] in *;
  repeat (first [rewrite nth_mul_s | rewrite nth_rsub_s | rewrite nth_exp_pass];
          [|rewrite ?length_mul_s, ?length_rsub_s, ?length_exp_pass, Hlen;
            exact Hi]);
  reflexivity.

Lemma Uc_charge_nth (i : nat) :
  (i < 500)%nat ->
  nth i (res_Uc (w true)) 0 = U0 * (1 - exp (- t_ i / tau)).
Proof. intros Hi. read_sample Hi. Qed.

Lemma Q_charge_nth (i : nat) :
  (i < 500)%nat -> nth i (res_Q (w true)) 0 = C * nth i (res_Uc (w true)) 0.
Proof. intros Hi. read_sample Hi. Qed.

Lemma I_charge_nth (i : nat) :
  (i < 500)%nat ->
  nth i (res_I (w true)) 0 = U0 / R_ohm * exp (- t_ i / tau).
Proof. intros Hi. read_sample Hi. Qed.

Lemma Uc_discharge_nth (i : nat) :
  (i < 500)%nat -> nth i (res_Uc (w false)) 0 = U0 * exp (- t_ i / tau).
Proof. intros Hi. read_sample Hi. Qed.

Lemma Q_discharge_nth (i : nat) :
  (i < 500)%nat -> nth i (res_Q (w false)) 0 = C * U0 * exp (- t_ i / tau).
Proof. intros Hi. read_sample Hi. Qed.

Lemma I_discharge_nth (i : nat) :
  (i < 500)%nat ->
  nth i (res_I (w false)) 0 = - (U0 / R_ohm) * exp (- t_ i / tau).
Proof. intros Hi. read_sample Hi. Qed.




Hypothesis HR : 0 < R_ohm.
Hypothesis HC : 0 < C_micro_f.







End Samples.

(** ** Closed-form samples (charging and discharging) *)

(** C1: for R > 0 and C_micro > 0, in charging mode the engine computes
    C = C_micro * 1e-6 and tau = R * C, and at every sample index i of the
    grid U_C(t_i) = U0 * (1 - exp(-t_i / tau)), Q(t_i) = C * U_C(t_i) and
    I(t_i) = (U0 / R) * exp(-t_i / tau), where t_i is the i-th grid point. *)
Theorem C1_charging_samples (R_ohm C_micro_f U0 : R) (i : nat) :
  0 < R_ohm -> 0 < C_micro_f -> (i < 500)%nat ->
  let w := update_graphs R_ohm C_micro_f U0 true in
  let C := C_micro_f * 1e-6 in
  let tau := R_ohm * C in
  let t_i := nth i (res_t w) 0 in
  res_C w = C /\ res_tau w = tau /\
  nth i (res_Uc w) 0 = U0 * (1 - exp (- t_i / tau)) /\
  nth i (res_Q w) 0 = C * nth i (res_Uc w) 0 /\
  nth i (res_I w) 0 = U0 / R_ohm * exp (- t_i / tau).
Proof.
  intros _ _ Hi w C tau t_i. subst w C tau t_i.
  split; [apply res_C_eq|]. split; [apply res_tau_eq|].
  split; [now apply Uc_charge_nth|].
  split; [now apply Q_charge_nth|now apply I_charge_nth].
Qed.

Lemma C1_charging_samples_witness :
  (0 < 1000 /\ 0 < 100 /\ (3 < 500)%nat) /\
  nth 3 (res_Uc (update_graphs 1000 100 5 true)) 0
  = 5 * (1 - exp (- nth 3 (res_t (update_graphs 1000 100 5 true)) 0
                  / (1000 * (100 * 1e-6)))).
Proof.
  split; [repeat split; try lra; lia|].
  exact (proj1 (proj2 (proj2
    (C1_charging_samples 1000 100 5 3 ltac:(lra) ltac:(lra) ltac:(lia))))).
Defined.

(** C2: for R > 0 and C_micro > 0, in discharging mode the engine computes at
    every sample index i U_C(t_i) = U0 * exp(-t_i / tau),
    Q(t_i) = C * U0 * exp(-t_i / tau) and I(t_i) = -(U0 / R) * exp(-t_i / tau),
    and this current is the negation of the charging current computed for the
    same inputs at the same index. *)
Theorem C2_discharging_samples (R_ohm C_micro_f U0 : R) (i : nat) :
  0 < R_ohm -> 0 < C_micro_f -> (i < 500)%nat ->
  let w := update_graphs R_ohm C_micro_f U0 false in
  let C := C_micro_f * 1e-6 in
  let tau := R_ohm * C in
  let t_i := nth i (res_t w) 0 in
  res_C w = C /\ res_tau w = tau /\
  nth i (res_Uc w) 0 = U0 * exp (- t_i / tau) /\
  nth i (res_Q w) 0 = C * U0 * exp (- t_i / tau) /\
  nth i (res_I w) 0 = - (U0 / R_ohm) * exp (- t_i / tau) /\
  nth i (res_I w) 0 = - nth i (res_I (update_graphs R_ohm C_micro_f U0 true)) 0.
Proof.
  intros _ _ Hi w C tau t_i. subst w C tau t_i.
  rewrite (res_t_mode _ _ _ false).
  split; [apply res_C_eq|]. split; [apply res_tau_eq|].
  split; [now apply Uc_discharge_nth|].
  split; [now apply Q_discharge_nth|].
  split; [now apply I_discharge_nth|].
  rewrite I_discharge_nth, I_charge_nth by exact Hi. ring.
Qed.

Lemma C2_discharging_samples_witness :
  (0 < 1000 /\ 0 < 100 /\ (3 < 500)%nat) /\
  nth 3 (res_I (update_graphs 1000 100 5 false)) 0
  = - nth 3 (res_I (update_graphs 1000 100 5 true)) 0.
Proof.
  split; [repeat split; try lra; lia|].
  exact (proj2 (proj2 (proj2 (proj2 (proj2
    (C2_discharging_samples 1000 100 5 3
       ltac:(lra) ltac:(lra) ltac:(lia))))))).
Defined.

(** ** The time grid and the window *)



(** C7 as stated fails: at R = 2000 and C_micro = 1 the product 5 * tau is
    exactly the floor 0.01, so t_max equals the floor although 5 * tau is
    not below it. *)
Lemma C7_floor_boundary_counterexample :
  (0 < 2000 /\ 0 < 1) /\
  res_t_max (update_graphs 2000 1 5 true) = 0.01 /\
  ~ 5 * res_tau (update_graphs 2000 1 5 true) < 0.01.
Proof.
  split; [split; lra|].
  rewrite res_t_max_eq, res_tau_eq. unfold py_max.
  destruct (Rlt_dec _ _); split; lra.
Qed.

(** C7 (amended): for R > 0 and C_micro > 0 the window satisfies
    t_max >= 5 * tau, and t_max equals the floor 0.01 exactly when
    5 * tau <= 0.01 (so whenever t_max = 0.01, 5 * tau <= 0.01). *)
Theorem C7_window_floor (R_ohm C_micro_f U0 : R) (mode : bool) :
  0 < R_ohm -> 0 < C_micro_f ->
  let w := update_graphs R_ohm C_micro_f U0 mode in
  5 * res_tau w <= res_t_max w /\
  (res_t_max w = 0.01 <-> 5 * res_tau w <= 0.01).
Proof.
  intros _ _ w. subst w. rewrite res_t_max_eq, res_tau_eq. unfold py_max.
  destruct (Rlt_dec _ _); repeat split; intros; lra.
Qed.

Lemma C7_window_floor_witness :
  (0 < 2000 /\ 0 < 1) /\
  5 * res_tau (update_graphs 2000 1 5 true)
  <= res_t_max (update_graphs 2000 1 5 true).
Proof.
  split; [split; lra|].
  exact (proj1 (C7_window_floor 2000 1 5 true ltac:(lra) ltac:(lra))).
Defined.



(** ** Relations between the waveforms *)








(** ** Finiteness of the results *)

(** The special-value rules at work. *)
Example xdiv_zero_by_zero : Ext.xdiv (Ext.Fin 0) (Ext.Fin 0) = Ext.NaN.
Proof.
  unfold Ext.xdiv. destruct (Req_dec_T 0 0) as [_|H]; [reflexivity|lra].
Qed.

Example xdiv_negative_by_zero :
  Ext.xdiv (Ext.Fin (-1)) (Ext.Fin 0) = Ext.NInf.
Proof.
  unfold Ext.xdiv, Ext.is_neg, Ext.inf_of.
  destruct (Req_dec_T 0 0) as [_|H]; [|lra].
  destruct (Req_dec_T (-1) 0) as [H|_]; [lra|].
  destruct (Rlt_dec (-1) 0) as [_|H]; [reflexivity|lra].
Qed.

Example xexp_minus_infinity : Ext.xexp Ext.NInf = Ext.Fin 0.
Proof. reflexivity. Qed.

Example xmul_zero_by_infinity :
  Ext.xmul (Ext.Fin 0) Ext.PInf = Ext.NaN.
Proof.
  unfold Ext.xmul. destruct (Req_dec_T 0 0) as [_|H]; [reflexivity|lra].
Qed.







Lemma length_res_Uc (R_ohm C_micro_f U0 : R) (m : bool) :
  length (res_Uc (update_graphs R_ohm C_micro_f U0 m)) = 500%nat.
Proof.
  pose proof (length_res_t R_ohm C_micro_f U0 true) as Hlen.
  destruct m; cbn [update_graphs res_Uc res_t] in *;
    now rewrite ?length_mul_s, ?length_rsub_s, length_exp_pass.
Qed.

Lemma length_res_Q (R_ohm C_micro_f U0 : R) (m : bool) :
  length (res_Q (update_graphs R_ohm C_micro_f U0 m)) = 500%nat.
Proof.
  pose proof (length_res_t R_ohm C_micro_f U0 true) as Hlen.
  destruct m; cbn [update_graphs res_Q res_t] in *;
    now rewrite ?length_mul_s, ?length_rsub_s, length_exp_pass.
Qed.

Lemma length_res_I (R_ohm C_micro_f U0 : R) (m : bool) :
  length (res_I (update_graphs R_ohm C_micro_f U0 m)) = 500%nat.
Proof.
  pose proof (length_res_t R_ohm C_micro_f U0 true) as Hlen.
  destruct m; cbn [update_graphs res_I res_t] in *;
    now rewrite ?length_mul_s, length_exp_pass.
Qed.

(** Outside the precondition the special values do appear: with a zero
    capacitance [tau] is 0, the first exponent is [0 / 0], and the first
    voltage sample is [nan]; with a zero resistance the callback raises. *)
Lemma ext_zero_capacitance_gives_nan :
  exists w, Ext.update_graphs 1000 0 5 true = Some w /\
            nth 0 (Ext.xres_Uc w) (Ext.Fin 0) = Ext.NaN.
Proof.
  unfold Ext.update_graphs, Ext.py_div.
  destruct (Req_dec_T 1000 0) as [E|_]; [lra|].
  eexists. split; [reflexivity|].
  cbn [Ext.xres_Uc].
  unfold Ext.mul_s, Ext.rsub_s, Ext.exp, Ext.div_s, Ext.neg, Ext.of_array.
  rewrite !map_map.
  rewrite (nth_map_lt _ _ _ _ 0) by (rewrite length_linspace; lia).
  rewrite nth_linspace by lia. cbn [INR].
  replace (0 + 0 * _) with 0 by ring.
  cbn [Ext.xneg Ext.xdiv].
  destruct (Req_dec_T (1000 * (0 * 1e-6)) 0) as [_|H]; [|lra].
  destruct (Req_dec_T (- 0) 0) as [_|H]; [reflexivity|lra].
Qed.

Lemma ext_zero_resistance_raises :
  Ext.update_graphs 0 100 5 true = None.
Proof.
  unfold Ext.update_graphs, Ext.py_div.
  destruct (Req_dec_T 0 0) as [_|H]; [reflexivity|lra].
Qed.



(** ** Maximum and minimum of an array *)











Lemma length_mul_r (a : list R) (s : R) : length (Np.mul_r a s) = length a.
Proof. apply length_map. Qed.

Lemma nth_mul_r (a : list R) (s : R) (i : nat) (d : R) :
  (i < length a)%nat -> nth i (Np.mul_r a s) d = nth i a 0 * s.
Proof.
  intros Hi. unfold Np.mul_r.
  now rewrite (nth_map_lt _ _ _ _ 0) by exact Hi.
Qed.

(** ** The window in terms of the inputs *)








(** ** The figures handed to Plotly *)

Lemma py_max_iter_nonempty (a : list R) :
  (0 < length a)%nat -> exists y, py_max_iter a = Some y.
Proof. destruct a; cbn; intros H; [lia|eauto]. Qed.

Lemma amax_nonempty (a : list R) :
  (0 < length a)%nat -> exists y, Np.amax a = Some y.
Proof. destruct a; cbn; intros H; [lia|eauto]. Qed.

Lemma amin_nonempty (a : list R) :
  (0 < length a)%nat -> exists y, Np.amin a = Some y.
Proof. destruct a; cbn; intros H; [lia|eauto]. Qed.

(** Once the three annotation heights are known the figures are. *)
Lemma update_graphs_figures_eq
    (R_ohm C_micro_f U0 : R) (mode : bool) (y_u y_q y_i : R) :
  let w := update_graphs R_ohm C_micro_f U0 mode in
  let t_ms := Np.mul_r (res_t w) 1000 in
  let tau_ms := res_tau w * 1000 in
  py_max_iter (res_Uc w) = Some y_u ->
  py_max_iter (Np.mul_r (res_Q w) 1e3) = Some y_q ->
  (if mode then Np.amax (Np.mul_r (res_I w) 1e3)
   else Np.amin (Np.mul_r (res_I w) 1e3)) = Some y_i ->
  update_graphs_figures R_ohm C_micro_f U0 mode
  = Some (mkFigure t_ms (res_Uc w) "U_C(t)" tau_ms tau_ms y_u "t = τ" 20
            "Zeit t [ms]" "Spannung U_C [V]",
          mkFigure t_ms (Np.mul_r (res_Q w) 1e3) "Q(t)" tau_ms tau_ms y_q
            "t = τ" 20 "Zeit t [ms]" "Ladung Q [mC]",
          mkFigure t_ms (Np.mul_r (res_I w) 1e3) "I(t)" tau_ms tau_ms y_i
            "t = τ" (if mode then 20%Z else (-20)%Z)
            "Zeit t [ms]" "Strom I [mA] (Vorzeichen = Richtung)",
          res_mode_text w).
Proof.
  intros w t_ms tau_ms Hu Hq Hi. subst w t_ms tau_ms.
  unfold update_graphs_figures. now rewrite Hu, Hq, Hi.
Qed.

(** The callback never fails on an empty array: all three reductions run on
    500 samples. *)
Lemma annotation_heights_exist (R_ohm C_micro_f U0 : R) (mode : bool) :
  let w := update_graphs R_ohm C_micro_f U0 mode in
  exists y_u y_q y_i,
    py_max_iter (res_Uc w) = Some y_u /\
    py_max_iter (Np.mul_r (res_Q w) 1e3) = Some y_q /\
    (if mode then Np.amax (Np.mul_r (res_I w) 1e3)
     else Np.amin (Np.mul_r (res_I w) 1e3)) = Some y_i.
Proof.
  intros w. subst w.
  destruct (py_max_iter_nonempty
              (res_Uc (update_graphs R_ohm C_micro_f U0 mode)))
    as [y_u Hu]; [rewrite length_res_Uc; lia|].
  destruct (py_max_iter_nonempty
              (Np.mul_r (res_Q (update_graphs R_ohm C_micro_f U0 mode)) 1e3))
    as [y_q Hq]; [rewrite length_mul_r, length_res_Q; lia|].
  assert (Hlen : (0 < length
            (Np.mul_r (res_I (update_graphs R_ohm C_micro_f U0 mode)) 1e3))%nat)
    by (rewrite length_mul_r, length_res_I; lia).
  exists y_u, y_q.
  destruct mode;
    [destruct (amax_nonempty _ Hlen) as [y_i Hi]
    |destruct (amin_nonempty _ Hlen) as [y_i Hi]];
    exists y_i; now repeat split.
Qed.

(** X7: the callback returns its three figures for every valid input; they
    share one x axis, the time grid in milliseconds, every trace has 500 x
    and 500 y values, the voltage is plotted in volts (unscaled), charge and
    current are plotted times 1000 (mC and mA), and the returned mode text is
    the one of the branch taken. *)
Theorem figures_axes_and_units
    (R_ohm C_micro_f U0 : R) (mode : bool) :
  0 < R_ohm -> 0 < C_micro_f ->
  let w := update_graphs R_ohm C_micro_f U0 mode in
  exists fig_u fig_q fig_i mode_text,
    update_graphs_figures R_ohm C_micro_f U0 mode
    = Some (fig_u, fig_q, fig_i, mode_text) /\
    fig_x fig_q = fig_x fig_u /\ fig_x fig_i = fig_x fig_u /\
    length (fig_x fig_u) = 500%nat /\
    length (fig_y fig_u) = 500%nat /\
    length (fig_y fig_q) = 500%nat /\
    length (fig_y fig_i) = 500%nat /\
    (forall i, (i < 500)%nat ->
       nth i (fig_x fig_u) 0 = 1000 * nth i (res_t w) 0 /\
       nth i (fig_y fig_u) 0 = nth i (res_Uc w) 0 /\
       nth i (fig_y fig_q) 0 = 1000 * nth i (res_Q w) 0 /\
       nth i (fig_y fig_i) 0 = 1000 * nth i (res_I w) 0) /\
    mode_text = (if mode then "Modus: Laden" else "Modus: Entladen")%string.
Proof.
  intros _ _ w. subst w.
  destruct (annotation_heights_exist R_ohm C_micro_f U0 mode)
    as (y_u & y_q & y_i & Hu & Hq & Hi).
  do 4 eexists.
  split; [exact (update_graphs_figures_eq _ _ _ _ _ _ _ Hu Hq Hi)|].
  cbn [fig_x fig_y].
  rewrite !length_mul_r, length_res_t, length_res_Uc, length_res_Q,
    length_res_I.
  repeat (split; [reflexivity|]).
  split; [|now destruct mode].
  intros i Hlt.
  rewrite !nth_mul_r
    by (rewrite ?length_res_t, ?length_res_Q, ?length_res_I; exact Hlt).
  repeat split; lra.
Qed.

Lemma figures_axes_and_units_witness :
  (0 < 1000 /\ 0 < 100) /\
  exists fig_u fig_q fig_i mode_text,
    update_graphs_figures 1000 100 5 false
    = Some (fig_u, fig_q, fig_i, mode_text) /\
    length (fig_x fig_u) = 500%nat /\
    mode_text = "Modus: Entladen"%string.
Proof.
  split; [split; lra|].
  destruct (figures_axes_and_units 1000 100 5 false ltac:(lra) ltac:(lra))
    as (fu & fq & fi & mt & H & _ & _ & Hx & _ & _ & _ & _ & Hm).
  exists fu, fq, fi, mt. repeat split; assumption.
Defined.








(** ** Binary64: rounding, underflow and overflow *)

Import PrimFloat.
#[local] Set Warnings "-inexact-float".








(** Why C5 keeps strict statements on the slider ranges only, and C6 none:
    with R = 10 and C_micro = 1 the last exponent is -1000 and the
    exponential underflows to 0.0, so the last current sample is 0.0; with
    R = 100 and C_micro = 1 (the lowest slider settings) the last exponent is
    -100, the exponential is below half a unit in the last place of 1, and
    the last charging voltage sample is U0 itself. *)
Lemma b64_current_underflow (np_exp : float -> float) :
  np_exp (-1000.0000000000001)%float = 0%float ->
  nth 499 (B64.res_I (B64.update_graphs np_exp 10 1 5 true)) 0%float
  = 0%float.
Proof. intros H. vm_compute. rewrite H. reflexivity. Qed.

Lemma b64_voltage_saturation (np_exp : float -> float) :
  np_exp (-100.00000000000001)%float = 3.720075976020783e-44%float ->
  nth 499 (B64.res_Uc (B64.update_graphs np_exp 100 1 5 true)) 0%float
  = 5%float.
Proof. intros H. vm_compute. rewrite H. reflexivity. Qed.
